(** * Flux Type generator: effect pipeline, metaball field and style patches

    A shallow embedding of [types.ts], [components/Artboard.tsx],
    [services/geminiService.ts], [App.tsx] and the AI handler of
    [components/ControlPanel.tsx].

    Numbers.  The structure of the program (which stages are emitted, how
    often the anchor loop runs, which patch is applied) is modelled with a
    JavaScript [number] as a real ([R]): there the code only compares
    numbers and counts with small integers, which binary64 does exactly.
    Over [R], [Math.sin], [Math.cos] and [Math.PI] are the real sine, cosine
    and pi, [Math.floor] is the integer part, and [+ - *] are exact: what is
    proved of the arithmetic of this model is proved of exact arithmetic.

    The arithmetic the code really performs is modelled a second time in
    module [F64], on binary64 floating-point numbers with their rounding,
    infinities and NaN.  [Math.sin] is left to the engine by the language
    definition and is a parameter there.

    Strings are sequences of bytes holding UTF-8 text. *)

From Stdlib Require Import Reals Lra Lia List String ZArith Bool.
From Stdlib Require PrimFloat.
Import ListNotations.
Local Open Scope string_scope.
Local Open Scope list_scope.
Local Open Scope R_scope.

(* ================================================================= *)
(** ** JavaScript number primitives *)

Module Js.

Definition number := R.

(** [a < b], [a > b] and [a === b] on numbers, as booleans. *)
Definition lt (a b : number) : bool := if Rlt_dec a b then true else false.
Definition gt (a b : number) : bool := lt b a.
Definition strict_eq (a b : number) : bool :=
  if Req_dec_T a b then true else false.

Definition Math_floor (x : number) : number := IZR (Int_part x).
Definition Math_sin (x : number) : number := sin x.
Definition Math_cos (x : number) : number := cos x.
Definition Math_PI : number := PI.

(** Truthiness of a string that may be [undefined]: [!s] holds for
    [undefined] and for the empty string. *)
Definition falsy (s : option string) : bool :=
  match s with
  | None => true
  | Some EmptyString => true
  | Some (String _ _) => false
  end.

End Js.

(* ================================================================= *)
(** ** types.ts *)

Inductive FontFamily :=
| Inter | SpaceGrotesk | Syne | RubikMonoOne | Oswald | PlayfairDisplay
| Lobster | Cinzel | Righteous | TimesNewRoman | CourierNew.

Inductive TextureMode := solid | chrome | glass | neon.

Inductive MorphOperator := dilate | erode.

Inductive NoiseType := turbulence | fractalNoise.

Definition TextureMode_eqb (a b : TextureMode) : bool :=
  match a, b with
  | solid, solid | chrome, chrome | glass, glass | neon, neon => true
  | _, _ => false
  end.

Record TypeSettings := mkTypeSettings {
  (* Content *)
  text : string;
  fontFamily : FontFamily;
  fontSize : Js.number;
  letterSpacing : Js.number;
  lineHeight : Js.number;
  (* Transform *)
  rotation : Js.number;
  skewX : Js.number;
  skewY : Js.number;
  (* Morphology *)
  morphRadius : Js.number;
  morphOperator : MorphOperator;
  (* Distortion *)
  distortionX : Js.number;
  distortionY : Js.number;
  distortionStrength : Js.number;
  noiseType : NoiseType;
  noiseSeed : Js.number;
  (* Liquid *)
  blurStdDev : Js.number;
  contrast : Js.number;
  (* Texture *)
  textureMode : TextureMode;
  (* Metaballs *)
  numMetaballs : Js.number;
  metaballSpread : Js.number;
  metaballSpeed : Js.number;
  (* Style *)
  fillColor : string;
  strokeColor : string;
  strokeWidth : Js.number;
  showFill : bool;
  showStroke : bool;
  backgroundColor : string
}.

Definition newline : string := String (Ascii.ascii_of_nat 10) EmptyString.

Definition DEFAULT_SETTINGS : TypeSettings := {|
  text := "FLUX" ++ newline ++ "TYPE";
  fontFamily := Syne;
  fontSize := 120;
  letterSpacing := 0;
  lineHeight := 9 / 10;
  rotation := 0;
  skewX := 0;
  skewY := 0;
  morphRadius := 0;
  morphOperator := dilate;
  distortionX := 2 / 100;
  distortionY := 4 / 100;
  distortionStrength := 30;
  noiseType := turbulence;
  noiseSeed := 1;
  blurStdDev := 0;
  contrast := 1;
  textureMode := solid;
  numMetaballs := 5;
  metaballSpread := 40;
  metaballSpeed := 2 / 10;
  fillColor := "#FFFFFF";
  strokeColor := "#FF0055";
  strokeWidth := 2;
  showFill := true;
  showStroke := false;
  backgroundColor := "#000000"
|}.

(* ================================================================= *)
(** ** Artboard.tsx: deterministic generator and metaball anchors *)

Record Metaball := mkMetaball {
  id : Js.number;
  baseX : Js.number;
  baseY : Js.number;
  r : Js.number;
  phase : Js.number;
  speed : Js.number
}.

(** [const x = Math.sin(seed) * 10000; return x - Math.floor(x);] *)
Definition pseudoRandom (seed : Js.number) : Js.number :=
  let x := Js.Math_sin seed * 10000 in
  x - Js.Math_floor x.

(** The body of the [for] loop of [anchors] at loop index [i]: the ball that
    is pushed. *)
Definition anchor_at (settings : TypeSettings) (i : Js.number) : Metaball :=
  let seed1 := noiseSeed settings * 100 + i in
  let seed2 := noiseSeed settings * 200 + i in
  let seed3 := noiseSeed settings * 300 + i in
  let seed4 := noiseSeed settings * 400 + i in
  let shiftX := (pseudoRandom seed1 - 5 / 10) * metaballSpread settings in
  let shiftY := (pseudoRandom seed2 - 5 / 10) * metaballSpread settings in
  let baseX := 50 + shiftX in
  let baseY := 50 + shiftY in
  let r := 20 + pseudoRandom seed3 * 60 in
  let phase := pseudoRandom seed4 * Js.Math_PI * 2 in
  let speed := 5 / 10 + pseudoRandom seed1 * (5 / 10) in
  mkMetaball i baseX baseY r phase speed.

(** [for (let i = ...; i < settings.numMetaballs; i++) balls.push(...)],
    entered with the current [i] and [balls]; [fuel] bounds the number of
    iterations. *)
Fixpoint anchors_loop (fuel : nat) (settings : TypeSettings)
    (i : Js.number) (balls : list Metaball) : list Metaball :=
  match fuel with
  | O => balls
  | S fuel' =>
      if Js.lt i (numMetaballs settings)
      then anchors_loop fuel' settings (i + 1) (balls ++ [anchor_at settings i])
      else balls
  end.

(** Iterations that suffice for the loop started at [i = 0]: the guard
    [i < numMetaballs] fails at the latest when [i] reaches
    [up numMetaballs]. *)
Definition anchors_fuel (settings : TypeSettings) : nat :=
  Z.to_nat (up (numMetaballs settings)).

Definition anchors (settings : TypeSettings) : list Metaball :=
  if Js.strict_eq (numMetaballs settings) 0 then []
  else anchors_loop (anchors_fuel settings) settings 0 [].

(* ================================================================= *)
(** ** Artboard.tsx: animation clock and animated positions *)





Definition animX (ball : Metaball) (time : Js.number) : Js.number :=
  baseX ball + Js.Math_sin (time * speed ball + phase ball) * 5.

Definition animY (ball : Metaball) (time : Js.number) : Js.number :=
  baseY ball + Js.Math_cos (time * speed ball + phase ball) * 5.

(** The circles drawn for the metaballs: centre (in percent) and radius. *)
Definition circles (settings : TypeSettings) (time : Js.number)
    : list (Js.number * Js.number * Js.number) :=
  map (fun ball => (animX ball time, animY ball time, r ball))
      (anchors settings).

(* ================================================================= *)
(** ** Artboard.tsx: the filter graph *)

Inductive ChannelSelector := chR | chG | chB | chA.

Inductive CompositeOperator := op_in | op_over | op_arithmetic.

Record fePointLight := mkPointLight {
  light_x : Js.number; light_y : Js.number; light_z : Js.number
}.

(** The filter primitives the component emits, with the attributes it sets.
    [result] is [None] where the element carries no [result] attribute. *)
Inductive FilterPrimitive :=
| feMorphology (operator : MorphOperator) (radius : Js.number)
    (result : string)
| feTurbulence (type : NoiseType) (baseFrequency : Js.number * Js.number)
    (numOctaves : Js.number) (seed : Js.number) (result : string)
| feDisplacementMap (in1 in2 : string) (scale : Js.number)
    (xChannelSelector yChannelSelector : ChannelSelector) (result : string)
| feGaussianBlur (in1 : string) (stdDeviation : Js.number) (result : string)
| feColorMatrix (in1 : string) (values : list Js.number) (result : string)
| feSpecularLighting (in1 : string)
    (surfaceScale specularConstant specularExponent : Js.number)
    (lightingColor : string) (light : fePointLight) (result : string)
| feComposite (in1 in2 : string) (operator : CompositeOperator)
    (k : option (Js.number * Js.number * Js.number * Js.number))
    (result : option string)
| feMerge (nodes : list string).

Definition alphaMultiplier (settings : TypeSettings) : Js.number :=
  contrast settings.

Definition alphaOffset (settings : TypeSettings) : Js.number :=
  - (contrast settings * (5 / 10)).

(** The twenty numbers of the [values] attribute, row by row. *)
Definition colorMatrixValues (settings : TypeSettings) : list Js.number :=
  [ 1; 0; 0; 0; 0;
    0; 1; 0; 0; 0;
    0; 0; 1; 0; 0;
    0; 0; 0; alphaMultiplier settings; alphaOffset settings ].

(** JSX [cond && <elements/>]: the elements when [cond] holds, nothing
    otherwise. *)
Definition when {A} (cond : bool) (elements : list A) : list A :=
  if cond then elements else [].

Definition renderFilterContent (settings : TypeSettings)
    : list FilterPrimitive :=
  (* Stage 1: Shape Generation (Morph -> Noise -> Distort) *)
  when (Js.gt (morphRadius settings) 0)
    [ feMorphology (morphOperator settings) (morphRadius settings) "morphed" ]
  ++
  [ feTurbulence (noiseType settings)
      (distortionX settings, distortionY settings) 2 (noiseSeed settings)
      "noise";
    feDisplacementMap
      (if Js.gt (morphRadius settings) 0 then "morphed" else "SourceGraphic")
      "noise" (distortionStrength settings) chR chG "distorted";
    (* Stage 2: Gooey Logic (Blur -> Threshold) *)
    feGaussianBlur "distorted" (blurStdDev settings) "blurred";
    feColorMatrix "blurred" (colorMatrixValues settings) "gooShape" ]
  ++
  (* Stage 3: Texture/Material Application *)
  when (TextureMode_eqb (textureMode settings) solid)
    [ feMerge [ "gooShape" ] ]
  ++
  when (TextureMode_eqb (textureMode settings) chrome)
    [ feGaussianBlur "gooShape" 2 "bumpMap";
      feSpecularLighting "bumpMap" 5 (12 / 10) 30 "#ffffff"
        (mkPointLight (-5000) (-10000) 20000) "specular";
      feComposite "specular" "gooShape" op_in None (Some "specularMasked");
      feComposite "specularMasked" "gooShape" op_arithmetic
        (Some (0, 1, 1, 0)) None ]
  ++
  when (TextureMode_eqb (textureMode settings) glass)
    [ feGaussianBlur "gooShape" 3 "glassBump";
      feSpecularLighting "glassBump" 5 (15 / 10) 40 "#ffffff"
        (mkPointLight (-5000) (-10000) 20000) "glassSpecular";
      feColorMatrix "gooShape"
        [ 1; 0; 0; 0; 0;  0; 1; 0; 0; 0;  0; 0; 1; 0; 0;  0; 0; 0; 4 / 10; 0 ]
        "transparentBase";
      feComposite "glassSpecular" "gooShape" op_in None (Some "glassShine");
      feComposite "glassShine" "transparentBase" op_over None None ]
  ++
  when (TextureMode_eqb (textureMode settings) neon)
    [ feGaussianBlur "gooShape" 2 "glow1";
      feGaussianBlur "gooShape" 6 "glow2";
      feGaussianBlur "gooShape" 12 "glow3";
      feMerge [ "glow3"; "glow2"; "glow1"; "gooShape"; "gooShape" ] ].

(** *** Reading the compiled sequence *)

Definition is_morphology (p : FilterPrimitive) : bool :=
  match p with feMorphology _ _ _ => true | _ => false end.

(** The first input of every displacement stage of a sequence. *)
Definition displacement_inputs (ps : list FilterPrimitive) : list string :=
  flat_map (fun p =>
    match p with
    | feDisplacementMap in1 _ _ _ _ _ => [in1]
    | _ => []
    end) ps.

(** The effect of an SVG [type="matrix"] colour matrix (twenty numbers, four
    rows of five) on one RGBA sample: each output channel is the row applied
    to [(R, G, B, A, 1)]. *)
Record RGBA := mkRGBA {
  red : Js.number; green : Js.number; blue : Js.number; alpha : Js.number
}.

Definition matrix_row (values : list Js.number) (row : nat) (px : RGBA)
    : Js.number :=
  let v j := nth (5 * row + j) values 0 in
  v 0%nat * red px + v 1%nat * green px + v 2%nat * blue px
  + v 3%nat * alpha px + v 4%nat.

Definition apply_color_matrix (values : list Js.number) (px : RGBA) : RGBA :=
  mkRGBA (matrix_row values 0 px) (matrix_row values 1 px)
         (matrix_row values 2 px) (matrix_row values 3 px).

(* ================================================================= *)
(** ** services/geminiService.ts, App.tsx and the AI handler *)

(** [Partial<TypeSettings>]: every field may be absent. *)
Record PartialTypeSettings := mkPartial {
  p_text : option string;
  p_fontFamily : option FontFamily;
  p_fontSize : option Js.number;
  p_letterSpacing : option Js.number;
  p_lineHeight : option Js.number;
  p_rotation : option Js.number;
  p_skewX : option Js.number;
  p_skewY : option Js.number;
  p_morphRadius : option Js.number;
  p_morphOperator : option MorphOperator;
  p_distortionX : option Js.number;
  p_distortionY : option Js.number;
  p_distortionStrength : option Js.number;
  p_noiseType : option NoiseType;
  p_noiseSeed : option Js.number;
  p_blurStdDev : option Js.number;
  p_contrast : option Js.number;
  p_textureMode : option TextureMode;
  p_numMetaballs : option Js.number;
  p_metaballSpread : option Js.number;
  p_metaballSpeed : option Js.number;
  p_fillColor : option string;
  p_strokeColor : option string;
  p_strokeWidth : option Js.number;
  p_showFill : option bool;
  p_showStroke : option bool;
  p_backgroundColor : option string
}.

(** The object literal [{}]. *)
Definition empty_patch : PartialTypeSettings :=
  mkPartial None None None None None None None None None None None None None
            None None None None None None None None None None None None None
            None.

(** One key of an object spread [{ ...prev, ...patch }]: the patch's value
    when the patch has the key, the previous value otherwise. *)
Definition spread_key {A} (prev : A) (patch : option A) : A :=
  match patch with Some v => v | None => prev end.

(** [setSettings(prev => ({ ...prev, ...newSettings }))], as a function of
    the previous state. *)
Definition updateSettings (newSettings : PartialTypeSettings)
    (prev : TypeSettings) : TypeSettings := {|
  text := spread_key (text prev) (p_text newSettings);
  fontFamily := spread_key (fontFamily prev) (p_fontFamily newSettings);
  fontSize := spread_key (fontSize prev) (p_fontSize newSettings);
  letterSpacing := spread_key (letterSpacing prev) (p_letterSpacing newSettings);
  lineHeight := spread_key (lineHeight prev) (p_lineHeight newSettings);
  rotation := spread_key (rotation prev) (p_rotation newSettings);
  skewX := spread_key (skewX prev) (p_skewX newSettings);
  skewY := spread_key (skewY prev) (p_skewY newSettings);
  morphRadius := spread_key (morphRadius prev) (p_morphRadius newSettings);
  morphOperator := spread_key (morphOperator prev) (p_morphOperator newSettings);
  distortionX := spread_key (distortionX prev) (p_distortionX newSettings);
  distortionY := spread_key (distortionY prev) (p_distortionY newSettings);
  distortionStrength :=
    spread_key (distortionStrength prev) (p_distortionStrength newSettings);
  noiseType := spread_key (noiseType prev) (p_noiseType newSettings);
  noiseSeed := spread_key (noiseSeed prev) (p_noiseSeed newSettings);
  blurStdDev := spread_key (blurStdDev prev) (p_blurStdDev newSettings);
  contrast := spread_key (contrast prev) (p_contrast newSettings);
  textureMode := spread_key (textureMode prev) (p_textureMode newSettings);
  numMetaballs := spread_key (numMetaballs prev) (p_numMetaballs newSettings);
  metaballSpread :=
    spread_key (metaballSpread prev) (p_metaballSpread newSettings);
  metaballSpeed := spread_key (metaballSpeed prev) (p_metaballSpeed newSettings);
  fillColor := spread_key (fillColor prev) (p_fillColor newSettings);
  strokeColor := spread_key (strokeColor prev) (p_strokeColor newSettings);
  strokeWidth := spread_key (strokeWidth prev) (p_strokeWidth newSettings);
  showFill := spread_key (showFill prev) (p_showFill newSettings);
  showStroke := spread_key (showStroke prev) (p_showStroke newSettings);
  backgroundColor :=
    spread_key (backgroundColor prev) (p_backgroundColor newSettings)
|}.

(** How a call ends: it returns a value or throws (for an [async] function:
    the promise is fulfilled or rejected). *)
Inductive Completion (A : Type) :=
| Returned (value : A)
| Thrown (error : string).
Arguments Returned {A} value.
Arguments Thrown {A} error.

Definition bind {A B} (c : Completion A) (k : A -> Completion B)
    : Completion B :=
  match c with
  | Returned a => k a
  | Thrown e => Thrown e
  end.

Notation "x <- c ;; k" := (bind c (fun x => k))
  (at level 61, c at next level, right associativity).

(** [try { body } catch (error) { handler }] *)
Definition try_catch {A} (body : Completion A)
    (handler : string -> Completion A) : Completion A :=
  match body with
  | Returned a => Returned a
  | Thrown e => handler e
  end.

(** The request sent to the model.  The instruction text around the user's
    description is constant and is not represented. *)
Record GenerateContentRequest := mkRequest {
  model : string;
  user_description : string;
  responseMimeType : string;
  temperature : Js.number
}.

Record GenerateContentResponse := mkResponse {
  response_text : option string
}.

(** What lies outside the program: the environment variable, the remote
    model call and [JSON.parse] on the text it sent back. *)
Record Environment := mkEnvironment {
  API_KEY : option string;
  generateContent : GenerateContentRequest -> Completion GenerateContentResponse;
  JSON_parse : string -> Completion PartialTypeSettings
}.

Definition style_request (prompt : string) : GenerateContentRequest :=
  mkRequest "gemini-2.5-flash" prompt "application/json" (7 / 10).

(** The promise [generateStyleFromPrompt] returns.  Constructing the client
    ([new GoogleGenAI], outside the [try]) only stores the key and is taken
    to return; [if (!result) return {}] is the first two cases of the
    match. *)
Definition generateStyleFromPrompt (env : Environment) (prompt : string)
    (currentSettings : TypeSettings) : Completion PartialTypeSettings :=
  if Js.falsy (API_KEY env) then Returned empty_patch
  else
    try_catch
      (response <- generateContent env (style_request prompt) ;;
       let result := response_text response in
       match result with
       | None => Returned empty_patch
       | Some EmptyString => Returned empty_patch
       | Some json =>
           parsed <- JSON_parse env json ;;
           Returned parsed
       end)
      (fun error => Returned empty_patch).

(** The white space of one byte that [trim] removes: space, tab, line feed,
    vertical tab, form feed and carriage return. *)
Definition is_white_space (c : Ascii.ascii) : bool :=
  let n := Ascii.nat_of_ascii c in
  (Nat.eqb n 32 || (Nat.leb 9 n && Nat.leb n 13))%bool.

(** [!prompt.trim()]: the prompt holds nothing but the white space and line
    terminators of the language.  Beyond the one-byte ones these are, in
    UTF-8: U+00A0 (C2 A0), U+1680 (E1 9A 80), U+2000 to U+200A
    (E2 80 80 to E2 80 8A), U+2028 and U+2029 (E2 80 A8, E2 80 A9), U+202F
    (E2 80 AF), U+205F (E2 81 9F), U+3000 (E3 80 80) and U+FEFF (EF BB BF).
    A byte A0 on its own, the no-break space of a Latin-1 string, counts as
    well. *)
Fixpoint blank (prompt : string) : bool :=
  match prompt with
  | EmptyString => true
  | String c rest =>
      let n := Ascii.nat_of_ascii c in
      if is_white_space c || Nat.eqb n 160 then blank rest
      else
        match rest with
        | EmptyString => false
        | String c2 rest2 =>
            let n2 := Ascii.nat_of_ascii c2 in
            if Nat.eqb n 194 then Nat.eqb n2 160 && blank rest2
            else
              match rest2 with
              | EmptyString => false
              | String c3 rest3 =>
                  let n3 := Ascii.nat_of_ascii c3 in
                  if Nat.eqb n 225
                  then Nat.eqb n2 154 && Nat.eqb n3 128 && blank rest3
                  else if Nat.eqb n 226
                  then
                    ((Nat.eqb n2 128
                      && ((Nat.leb 128 n3 && Nat.leb n3 138)
                          || Nat.eqb n3 168 || Nat.eqb n3 169
                          || Nat.eqb n3 175))
                     || (Nat.eqb n2 129 && Nat.eqb n3 159))
                    && blank rest3
                  else if Nat.eqb n 227
                  then Nat.eqb n2 128 && Nat.eqb n3 128 && blank rest3
                  else if Nat.eqb n 239
                  then Nat.eqb n2 187 && Nat.eqb n3 191 && blank rest3
                  else false
              end
        end
  end.

(** [handleAiGenerate] of the control panel, as the settings it leaves
    behind: nothing happens on a blank prompt; otherwise the suggested patch
    is applied, and a rejection is caught and logged. *)
Definition handleAiGenerate (env : Environment) (prompt : string)
    (settings : TypeSettings) : TypeSettings :=
  if blank prompt then settings
  else
    match generateStyleFromPrompt env prompt settings with
    | Returned newStyle => updateSettings newStyle settings
    | Thrown e => settings
    end.

(** The ways the suggestion call fails. *)
Inductive suggestion_fails (env : Environment) (prompt : string) : Prop :=
| fails_missing_key :
    Js.falsy (API_KEY env) = true -> suggestion_fails env prompt
| fails_network error :
    generateContent env (style_request prompt) = Thrown error ->
    suggestion_fails env prompt
| fails_empty_response response :
    generateContent env (style_request prompt) = Returned response ->
    Js.falsy (response_text response) = true ->
    suggestion_fails env prompt
| fails_parse response json error :
    generateContent env (style_request prompt) = Returned response ->
    response_text response = Some json ->
    JSON_parse env json = Thrown error ->
    suggestion_fails env prompt.

(* ================================================================= *)
(** ** Settings, anchors and environments used as concrete inputs *)

(** What the sliders send: [updateSettings({ numMetaballs: v })] and the
    like. *)
Definition patch_numMetaballs (v : Js.number) : PartialTypeSettings :=
  mkPartial None None None None None None None None None None None None None
            None None None None None (Some v) None None None None None None
            None None.

Definition patch_metaballSpeed (v : Js.number) : PartialTypeSettings :=
  mkPartial None None None None None None None None None None None None None
            None None None None None None None (Some v) None None None None
            None None.

Definition patch_textureMode (mode : TextureMode) : PartialTypeSettings :=
  mkPartial None None None None None None None None None None None None None
            None None None None (Some mode) None None None None None None
            None None None.

Definition patch_morphRadius (v : Js.number) : PartialTypeSettings :=
  mkPartial None None None None None None None None (Some v) None None None
            None None None None None None None None None None None None None
            None None.

(** The defaults with the particle count at zero: no metaballs, no
    morphology, solid texture, no blur. *)
Definition no_metaballs_settings : TypeSettings :=
  updateSettings (patch_numMetaballs 0) DEFAULT_SETTINGS.

(** The defaults with the flow rate at zero. *)
Definition frozen_settings : TypeSettings :=
  updateSettings (patch_metaballSpeed 0) DEFAULT_SETTINGS.

Definition neon_settings : TypeSettings :=
  updateSettings (patch_textureMode neon) DEFAULT_SETTINGS.

Definition morphed_settings : TypeSettings :=
  updateSettings (patch_morphRadius 3) DEFAULT_SETTINGS.

(** An environment whose model call is rejected. *)
Definition offline_environment : Environment :=
  mkEnvironment (Some "key")
    (fun _ => Thrown "network error")
    (fun _ => Thrown "SyntaxError").

(** The ranges of the fields of an anchor derived with spread [spread]. *)
Definition anchor_in_ranges (spread : Js.number) (ball : Metaball) : Prop :=
  50 - spread / 2 <= baseX ball <= 50 + spread / 2 /\
  50 - spread / 2 <= baseY ball <= 50 + spread / 2 /\
  20 <= r ball <= 80 /\
  0 <= phase ball < 2 * PI /\
  5 / 10 <= speed ball <= 1.

(* ================================================================= *)
(** ** Reading the filter graph: buffers read and written *)

(** The named buffers a primitive reads: its [in] and [in2] attributes, or
    the [in] of its merge nodes.  [feMorphology] is written without [in] and
    [feTurbulence] reads nothing. *)
Definition stage_inputs (p : FilterPrimitive) : list string :=
  match p with
  | feMorphology _ _ _ => []
  | feTurbulence _ _ _ _ _ => []
  | feDisplacementMap in1 in2 _ _ _ _ => [in1; in2]
  | feGaussianBlur in1 _ _ => [in1]
  | feColorMatrix in1 _ _ => [in1]
  | feSpecularLighting in1 _ _ _ _ _ _ => [in1]
  | feComposite in1 in2 _ _ _ => [in1; in2]
  | feMerge nodes => nodes
  end.

(** The [result] attribute, when the element has one. *)
Definition stage_result (p : FilterPrimitive) : option string :=
  match p with
  | feMorphology _ _ result => Some result
  | feTurbulence _ _ _ _ result => Some result
  | feDisplacementMap _ _ _ _ _ result => Some result
  | feGaussianBlur _ _ result => Some result
  | feColorMatrix _ _ result => Some result
  | feSpecularLighting _ _ _ _ _ _ result => Some result
  | feComposite _ _ _ _ result => result
  | feMerge _ => None
  end.

Definition named (name : string) (names : list string) : bool :=
  existsb (String.eqb name) names.

(** Every buffer a stage reads is among [defined], or was written by a stage
    before it. *)
Fixpoint well_threaded (defined : list string) (ps : list FilterPrimitive)
    : bool :=
  match ps with
  | [] => true
  | p :: rest =>
      forallb (fun name => named name defined) (stage_inputs p)
      && well_threaded
           (match stage_result p with
            | Some result => result :: defined
            | None => defined
            end) rest
  end.

(** The buffer names written by a sequence, in order. *)
Definition results (ps : list FilterPrimitive) : list string :=
  flat_map (fun p =>
    match stage_result p with Some result => [result] | None => [] end) ps.

(** Every named buffer is read by a later stage, and only the last stage
    goes without a name. *)
Fixpoint every_result_read (ps : list FilterPrimitive) : bool :=
  match ps with
  | [] => true
  | p :: rest =>
      match stage_result p with
      | Some result => existsb (fun q => named result (stage_inputs q)) rest
      | None => match rest with [] => true | _ :: _ => false end
      end
      && every_result_read rest
  end.

(** The formula of [operator="arithmetic"] on one channel of the two inputs,
    before the result is clamped. *)
Definition arithmetic (k : Js.number * Js.number * Js.number * Js.number)
    (i1 i2 : Js.number) : Js.number :=
  let '(k1, k2, k3, k4) := k in
  k1 * i1 * i2 + k2 * i1 + k3 * i2 + k4.

(** The alpha the contrast remap of [settings] gives to a sample of alpha
    [a], before clamping: the fourth row of [colorMatrixValues]. *)
Definition remapped_alpha (settings : TypeSettings) (a : Js.number)
    : Js.number :=
  alpha (apply_color_matrix (colorMatrixValues settings) (mkRGBA 0 0 0 a)).

(* ================================================================= *)
(** ** Artboard.tsx: the text block *)

(** [s.split(sep)] for a separator of one character: the pieces between the
    separators, at least one piece. *)
Fixpoint split (sep : Ascii.ascii) (s : string) : list string :=
  match s with
  | EmptyString => [EmptyString]
  | String c rest =>
      if Ascii.eqb c sep then EmptyString :: split sep rest
      else
        match split sep rest with
        | piece :: pieces => String c piece :: pieces
        | [] => [String c EmptyString]
        end
  end.

Definition newline_char : Ascii.ascii := Ascii.ascii_of_nat 10.

(** [const lines = settings.text.split('\n')] *)
Definition lines (settings : TypeSettings) : list string :=
  split newline_char (text settings).

(* ================================================================= *)
(** ** Artboard.tsx: the exported SVG source *)

Definition double_quote : string := String (Ascii.ascii_of_nat 34) EmptyString.

Definition carriage_return_line_feed : string :=
  String (Ascii.ascii_of_nat 13) (String (Ascii.ascii_of_nat 10) EmptyString).

(** [s] without the leading [prefix], when it starts with it. *)
Fixpoint strip_prefix (prefix s : string) : option string :=
  match prefix, s with
  | EmptyString, _ => Some s
  | String a prefix', String b s' =>
      if Ascii.eqb a b then strip_prefix prefix' s' else None
  | String _ _, EmptyString => None
  end.

(** The character [>]. *)
Definition tag_end : Ascii.ascii := Ascii.ascii_of_nat 62.

(** A match of [[^>]+literal] at the start of [s]; [seen] tells that at
    least one character other than [>] has been consumed. *)
Fixpoint after_tag_name (literal : string) (seen : bool) (s : string) : bool :=
  (seen && String.prefix literal s)
  || match s with
     | EmptyString => false
     | String c rest =>
         negb (Ascii.eqb c tag_end) && after_tag_name literal true rest
     end.

(** [source.match(/^<svg[^>]+literal/)] as a test. *)
Definition root_tag_declares (literal source : string) : bool :=
  match strip_prefix "<svg" source with
  | Some rest => after_tag_name literal false rest
  | None => false
  end.

(** [source.replace(/^<svg/, replacement)] *)
Definition replace_root_tag (replacement source : string) : string :=
  match strip_prefix "<svg" source with
  | Some rest => replacement ++ rest
  | None => source
  end.

Definition xmlns_declaration : string :=
  "xmlns=" ++ double_quote ++ "http://www.w3.org/2000/svg" ++ double_quote.

Definition xlink_declaration : string :=
  "xmlns:xlink=" ++ double_quote ++ "http://www.w3.org/1999/xlink"
  ++ double_quote.

Definition xml_header : string :=
  "<?xml version=" ++ double_quote ++ "1.0" ++ double_quote
  ++ " standalone=" ++ double_quote ++ "no" ++ double_quote ++ "?>"
  ++ carriage_return_line_feed.

(** The two namespace repairs of [downloadSVG] on the serialized element. *)
Definition with_namespaces (serialized : string) : string :=
  let source :=
    if negb (root_tag_declares xmlns_declaration serialized)
    then replace_root_tag ("<svg " ++ xmlns_declaration) serialized
    else serialized in
  if negb (root_tag_declares "xmlns:xlink" source)
  then replace_root_tag ("<svg " ++ xlink_declaration) source
  else source.

(** The [source] that [downloadSVG] encodes into the link: nothing when the
    element is not mounted ([svgRef.current] is null), otherwise the
    serialized element with its namespaces repaired and the XML header in
    front. *)
Definition downloadSVG (serialized : option string) : option string :=
  match serialized with
  | None => None
  | Some source => Some (xml_header ++ with_namespaces source)%string
  end.

(* ================================================================= *)
(** ** More concrete inputs *)

(** The text [{"textureMode":"neon"}]. *)
Definition neon_json : string :=
  "{" ++ double_quote ++ "textureMode" ++ double_quote ++ ":"
  ++ double_quote ++ "neon" ++ double_quote ++ "}".

(** An environment whose model call answers [neon_json]; its [JSON.parse]
    reads that text and the empty object, and rejects any other text as
    this model call never sends one. *)
Definition neon_answer_environment : Environment :=
  mkEnvironment (Some "key")
    (fun _ => Returned (mkResponse (Some neon_json)))
    (fun json =>
       if String.eqb json neon_json then Returned (patch_textureMode neon)
       else if String.eqb json "{}" then Returned empty_patch
       else Thrown "SyntaxError").

(** The prompt that holds one no-break space, U+00A0. *)
Definition no_break_space : string :=
  String (Ascii.ascii_of_nat 194) (String (Ascii.ascii_of_nat 160) EmptyString).

(* ================================================================= *)
(** ** Counting and scanning characters *)

(** How often the character [c] occurs in [s]. *)
Fixpoint occurrences (c : Ascii.ascii) (s : string) : nat :=
  match s with
  | EmptyString => 0%nat
  | String c' rest =>
      ((if Ascii.eqb c' c then 1 else 0) + occurrences c rest)%nat
  end.

(** No character of [s] is [>]. *)
Fixpoint tag_free (s : string) : bool :=
  match s with
  | EmptyString => true
  | String c rest => negb (Ascii.eqb c tag_end) && tag_free rest
  end.

(* ================================================================= *)
(** ** The arithmetic of the metaball field on binary64 numbers *)

Module F64.
Import PrimFloat.
Local Open Scope float_scope.

Definition number := float.

Definition two_pow_52 : number := 0x1p52.

(** [Math.floor]: the largest integer not above [x]; an infinity, NaN, a
    zero of either sign and every number from [2^52] on (all integers) are
    returned as they are.  Below [2^52], adding and subtracting [2^52]
    rounds to the nearest integer, which is one too high when it is above
    [x]. *)
Definition Math_floor (x : number) : number :=
  if abs x <? two_pow_52 then
    if x =? 0 then x
    else
      let nearest :=
        if 0 <=? x then (x + two_pow_52) - two_pow_52
        else (x - two_pow_52) + two_pow_52 in
      if x <? nearest then nearest - 1 else nearest
  else x.

(** [Math.PI], the binary64 number nearest to pi. *)
Definition Math_PI : number := 0x1.921fb54442d18p+1.

Record Metaball := mkMetaball {
  id : number;
  baseX : number;
  baseY : number;
  r : number;
  phase : number;
  speed : number
}.

Section Engine.

(** [Math.sin] of the engine that runs the program. *)
Variable Math_sin : number -> number.

(** [const x = Math.sin(seed) * 10000; return x - Math.floor(x);] *)
Definition pseudoRandom (seed : number) : number :=
  let x := Math_sin seed * 10000 in
  x - Math_floor x.

(** The body of the [for] loop of [anchors] at loop index [i], from the two
    settings it reads. *)
Definition anchor_at (noiseSeed metaballSpread i : number) : Metaball :=
  let seed1 := noiseSeed * 100 + i in
  let seed2 := noiseSeed * 200 + i in
  let seed3 := noiseSeed * 300 + i in
  let seed4 := noiseSeed * 400 + i in
  let shiftX := (pseudoRandom seed1 - 0.5) * metaballSpread in
  let shiftY := (pseudoRandom seed2 - 0.5) * metaballSpread in
  let baseX := 50 + shiftX in
  let baseY := 50 + shiftY in
  let r := 20 + pseudoRandom seed3 * 60 in
  let phase := pseudoRandom seed4 * Math_PI * 2 in
  let speed := 0.5 + pseudoRandom seed1 * 0.5 in
  mkMetaball i baseX baseY r phase speed.

End Engine.

(** [lo <= x <= hi]; false as soon as one of the three is NaN. *)
Definition between (lo x hi : number) : Prop :=
  (lo <=? x) = true /\ (x <=? hi) = true.


(** The ranges of the fields of an anchor derived with spread [spread]. *)
Definition anchor_in_ranges (spread : number) (ball : Metaball) : Prop :=
  between (50 - spread / 2) (baseX ball) (50 + spread / 2) /\
  between (50 - spread / 2) (baseY ball) (50 + spread / 2) /\
  between 20 (r ball) 80 /\
  ((0 <=? phase ball) = true /\ (phase ball <? 2 * Math_PI) = true) /\
  between 0.5 (speed ball) 1.


(** The sine, rounded to the nearest binary64 number, of the seeds of the
    first five anchors for a noise seed of 1, and of 710. *)
Definition sine_table : list (number * number) :=
  [ (100, -0x1.03425b78c4db8p-1); (101, 0x1.cedfd91384c8bp-2);
    (102, 0x1.fd59efec23502p-1);  (103, 0x1.3ef85daba63d3p-1);
    (104, -0x1.4957621cf9da7p-2); (200, -0x1.bf20d2c67047fp-1);
    (201, -0x1.fb014358e6928p-5); (202, 0x1.9ce2df98c327dp-1);
    (203, 0x1.dddac4de83690p-1);  (204, 0x1.9df14768d56aap-3);
    (300, -0x1.ffdfff58b88ccp-1); (301, -0x1.1e16524e54d16p-1);
    (302, 0x1.9574a8b05946fp-2);  (303, 0x1.f927e54af347dp-1);
    (304, 0x1.5725589f96825p-1);  (400, -0x1.b3abb3ca5df71p-1);
    (401, -0x1.cdb57ea34f030p-1); (402, -0x1.fa0871bebed51p-4);
    (403, 0x1.895b34457b31ap-1);  (404, 0x1.e851147996c08p-1);
    (710, 0x1.f9bd0303f6fafp-15) ].

Fixpoint lookup (table : list (number * number)) (x : number) : number :=
  match table with
  | [] => nan
  | (argument, value) :: rest =>
      if x =? argument then value else lookup rest x
  end.

(** A sine to run the model with: NaN for NaN and the infinities, as the
    language requires; the argument itself below [2^-26] in magnitude,
    where the sine rounds to its argument; the table otherwise, and NaN
    where the table has no entry. *)
Definition reference_sine (x : number) : number :=
  if is_nan x || is_infinity x then nan
  else if abs x <? 0x1p-26 then x
  else lookup sine_table x.


End F64.

(* ================================================================= *)
(** * Properties *)

(** ** Number comparisons *)

Section Comparisons.

Variables a b : Js.number.

Lemma lt_true : a < b -> Js.lt a b = true.
Proof. intros H. unfold Js.lt. destruct (Rlt_dec a b); [reflexivity | contradiction]. Qed.

Lemma lt_false : b <= a -> Js.lt a b = false.
Proof. intros H. unfold Js.lt. destruct (Rlt_dec a b); [lra | reflexivity]. Qed.

Lemma gt_true : a > b -> Js.gt a b = true.
Proof. intros H. unfold Js.gt, Js.lt. destruct (Rlt_dec b a); [reflexivity | lra]. Qed.

Lemma gt_false : a <= b -> Js.gt a b = false.
Proof. intros H. unfold Js.gt, Js.lt. destruct (Rlt_dec b a); [lra | reflexivity]. Qed.

Lemma strict_eq_true : a = b -> Js.strict_eq a b = true.
Proof.
  intros H. unfold Js.strict_eq.
  destruct (Req_dec_T a b); [reflexivity | contradiction].
Qed.

Lemma strict_eq_false : a <> b -> Js.strict_eq a b = false.
Proof.
  intros H. unfold Js.strict_eq.
  destruct (Req_dec_T a b); [contradiction | reflexivity].
Qed.

End Comparisons.

(** ** The generator *)



(** ** The anchor loop *)

(** The loop leaves through its guard, not through the iteration bound: any
    bound that covers the distance from [i] to [numMetaballs] gives the same
    list. *)
Lemma anchors_loop_enough_fuel (settings : TypeSettings) :
  forall (fuel fuel' : nat) (i : Js.number) (balls : list Metaball),
    numMetaballs settings <= i + INR fuel ->
    (fuel <= fuel')%nat ->
    anchors_loop fuel' settings i balls = anchors_loop fuel settings i balls.
Proof.
  induction fuel as [|fuel IH]; intros fuel' i balls Hbound Hle.
  - simpl in Hbound. rewrite Rplus_0_r in Hbound.
    destruct fuel' as [|fuel']; [reflexivity|].
    simpl. rewrite (lt_false _ _ Hbound). reflexivity.
  - destruct fuel' as [|fuel']; [lia|].
    simpl. destruct (Js.lt i (numMetaballs settings)); [|reflexivity].
    apply IH; [|lia].
    rewrite S_INR in Hbound. lra.
Qed.

Lemma anchors_fuel_covers (settings : TypeSettings) :
  numMetaballs settings <= 0 + INR (anchors_fuel settings).
Proof.
  unfold anchors_fuel.
  destruct (archimed (numMetaballs settings)) as [Hup _].
  rewrite Rplus_0_l.
  destruct (Z_lt_le_dec (up (numMetaballs settings)) 0) as [Hneg | Hpos].
  - apply IZR_lt in Hneg.
    pose proof (pos_INR (Z.to_nat (up (numMetaballs settings)))). lra.
  - rewrite INR_IZR_INZ, Z2Nat.id by exact Hpos. lra.
Qed.

(** The anchors are what the unbounded loop computes. *)
Lemma anchors_fuel_irrelevant (settings : TypeSettings) (fuel : nat) :
  (anchors_fuel settings <= fuel)%nat ->
  anchors_loop fuel settings 0 [] =
  anchors_loop (anchors_fuel settings) settings 0 [].
Proof.
  intros Hle. apply anchors_loop_enough_fuel; [|exact Hle].
  apply anchors_fuel_covers.
Qed.

(** With an integral count [k], the loop entered at index [j] appends the
    anchors of the indices [j .. k-1] in order. *)
Lemma anchors_loop_integral (settings : TypeSettings) (k : nat) :
  numMetaballs settings = INR k ->
  forall (fuel j : nat) (balls : list Metaball),
    (j <= k)%nat -> (k - j <= fuel)%nat ->
    anchors_loop fuel settings (INR j) balls =
    balls ++ map (fun i => anchor_at settings (INR i)) (seq j (k - j)).
Proof.
  intros Hk. induction fuel as [|fuel IH]; intros j balls Hjk Hfuel.
  - replace (k - j)%nat with 0%nat by lia. simpl. now rewrite app_nil_r.
  - simpl. rewrite Hk.
    destruct (Nat.eq_dec j k) as [-> | Hne].
    + rewrite lt_false by lra.
      rewrite Nat.sub_diag. simpl. now rewrite app_nil_r.
    + assert (Hlt : (j < k)%nat) by lia.
      rewrite lt_true by (apply lt_INR; exact Hlt).
      rewrite <- S_INR, IH by lia.
      replace (k - j)%nat with (S (k - S j)) by lia.
      simpl. rewrite <- app_assoc. reflexivity.
Qed.

Lemma anchors_integral (settings : TypeSettings) (n : nat) :
  numMetaballs settings = INR n ->
  anchors settings = map (fun i => anchor_at settings (INR i)) (seq 0 n).
Proof.
  intros Hn. unfold anchors.
  unfold Js.strict_eq. destruct (Req_dec_T (numMetaballs settings) 0) as [H0 | H0].
  - rewrite Hn in H0. change 0 with (INR 0) in H0. apply INR_eq in H0.
    subst n. reflexivity.
  - change 0 with (INR 0).
    rewrite (anchors_loop_integral settings n Hn).
    + rewrite Nat.sub_0_r. reflexivity.
    + lia.
    + unfold anchors_fuel. rewrite Hn, INR_IZR_INZ.
      rewrite <- (up_tech (IZR (Z.of_nat n)) (Z.of_nat n)).
      * lia.
      * lra.
      * apply IZR_lt. lia.
Qed.

(** Every ball of the loop's result was there before or was pushed by the
    loop body at some index. *)
Lemma anchors_loop_In (settings : TypeSettings) (ball : Metaball) :
  forall (fuel : nat) (i : Js.number) (balls : list Metaball),
    In ball (anchors_loop fuel settings i balls) ->
    In ball balls \/ exists j, ball = anchor_at settings j.
Proof.
  induction fuel as [|fuel IH]; intros i balls Hin; simpl in Hin.
  - now left.
  - destruct (Js.lt i (numMetaballs settings)); [|now left].
    apply IH in Hin. destruct Hin as [Hin | Hex]; [|now right].
    apply in_app_or in Hin. destruct Hin as [Hin | [<- | []]].
    + now left.
    + right. now exists i.
Qed.

Lemma anchors_In (settings : TypeSettings) (ball : Metaball) :
  In ball (anchors settings) -> exists i, ball = anchor_at settings i.
Proof.
  unfold anchors. destruct (Js.strict_eq (numMetaballs settings) 0).
  - intros [].
  - intros Hin. apply anchors_loop_In in Hin. destruct Hin as [[] | Hex].
    exact Hex.
Qed.

(** ** Claims on the generator and the anchors *)

(** C6: with a count of zero the anchors are the empty list; with a count
    [n] there are exactly [n] anchors and they carry the indices
    [0 .. n-1] in order; and the anchors depend on the settings only through
    the count, the spread and the seed, so deriving them again from equal
    arguments gives equal anchors, field by field. *)
Theorem anchors_empty_counted_ordered_stable :
  (forall settings, numMetaballs settings = 0 -> anchors settings = []) /\
  (forall settings (n : nat),
     numMetaballs settings = INR n ->
     List.length (anchors settings) = n /\
     map id (anchors settings) = map INR (seq 0 n) /\
     anchors settings = map (fun i => anchor_at settings (INR i)) (seq 0 n)) /\
  (forall settings1 settings2,
     numMetaballs settings1 = numMetaballs settings2 ->
     metaballSpread settings1 = metaballSpread settings2 ->
     noiseSeed settings1 = noiseSeed settings2 ->
     anchors settings1 = anchors settings2).
Proof.
  split; [|split].
  - intros settings H0. unfold anchors. now rewrite strict_eq_true.
  - intros settings n Hn. rewrite (anchors_integral settings n Hn).
    split; [|split].
    + now rewrite length_map, length_seq.
    + rewrite map_map. simpl. now rewrite <- map_map with (g := fun x => x), map_id.
    + reflexivity.
  - intros s1 s2 Hnum Hspread Hseed.
    assert (Hat : forall i, anchor_at s1 i = anchor_at s2 i).
    { intros i. unfold anchor_at. now rewrite Hspread, Hseed. }
    assert (Hloop : forall fuel i balls,
               anchors_loop fuel s1 i balls = anchors_loop fuel s2 i balls).
    { induction fuel as [|fuel IH]; intros i balls; simpl; [reflexivity|].
      rewrite Hnum, Hat, IH. reflexivity. }
    unfold anchors, anchors_fuel. rewrite Hnum, Hloop. reflexivity.
Qed.

Lemma anchors_empty_counted_ordered_stable_witness :
  anchors no_metaballs_settings = [] /\
  List.length (anchors DEFAULT_SETTINGS) = 5%nat /\
  anchors frozen_settings = anchors DEFAULT_SETTINGS.
Proof.
  destruct anchors_empty_counted_ordered_stable as [Hzero [Hcount Hstable]].
  split; [|split].
  - apply Hzero. reflexivity.
  - apply (Hcount DEFAULT_SETTINGS 5%nat). simpl. lra.
  - apply Hstable; reflexivity.
Defined.


(** ** Claims on the animation clock *)






(** ** Claims on the filter graph *)

(** The four material tests select exactly one branch. *)
Ltac material_cases settings :=
  unfold renderFilterContent, when;
  destruct (textureMode settings); simpl.

(** C1: with a morph radius of zero the compiled sequence holds no
    morphology stage and the displacement stage reads the raw shape,
    [SourceGraphic]; with a positive radius one morphology stage is emitted,
    first, with the chosen operator and radius and the output name
    [morphed], and the displacement stage reads [morphed]. *)
Theorem morphology_elided_or_threaded :
  forall settings,
    (morphRadius settings = 0 ->
     existsb is_morphology (renderFilterContent settings) = false /\
     displacement_inputs (renderFilterContent settings) = ["SourceGraphic"])
    /\
    (morphRadius settings > 0 ->
     hd_error (renderFilterContent settings)
       = Some (feMorphology (morphOperator settings) (morphRadius settings)
                 "morphed") /\
     filter is_morphology (renderFilterContent settings)
       = [feMorphology (morphOperator settings) (morphRadius settings)
            "morphed"] /\
     displacement_inputs (renderFilterContent settings) = ["morphed"]).
Proof.
  intros settings. split; intros Hradius.
  - assert (Hgt : Js.gt (morphRadius settings) 0 = false)
      by (apply gt_false; lra).
    material_cases settings; rewrite Hgt; simpl; split; reflexivity.
  - assert (Hgt : Js.gt (morphRadius settings) 0 = true)
      by (apply gt_true; exact Hradius).
    material_cases settings; rewrite Hgt; simpl; repeat split; reflexivity.
Qed.

Lemma morphology_elided_or_threaded_witness :
  displacement_inputs (renderFilterContent DEFAULT_SETTINGS)
    = ["SourceGraphic"] /\
  displacement_inputs (renderFilterContent morphed_settings) = ["morphed"].
Proof.
  split.
  - apply (morphology_elided_or_threaded DEFAULT_SETTINGS). reflexivity.
  - apply (morphology_elided_or_threaded morphed_settings). simpl. lra.
Defined.

(** C2 fails on [no_metaballs_settings]: no metaballs, no morphology, solid
    texture and no blur, yet the compiled sequence has five stages, not
    four: the solid branch emits a merge stage of its own. *)
Lemma solid_sequence_has_five_stages :
  numMetaballs no_metaballs_settings = 0 /\
  morphRadius no_metaballs_settings = 0 /\
  textureMode no_metaballs_settings = solid /\
  blurStdDev no_metaballs_settings = 0 /\
  List.length (renderFilterContent no_metaballs_settings) = 5%nat /\
  List.length (renderFilterContent no_metaballs_settings) <> 4%nat.
Proof.
  assert (Hgt : Js.gt 0 0 = false) by (apply gt_false; lra).
  repeat split; try reflexivity;
    unfold renderFilterContent, when; simpl; rewrite Hgt; simpl;
    [reflexivity | discriminate].
Qed.

(** C2, amended: with no metaballs, a morph radius of zero, the solid
    texture and a blur of zero, the compiled sequence has exactly five
    stages: noise generation, displacement of the raw shape, blur, contrast
    remap, and a merge of the single input [gooShape] that passes it through
    as the final output; and no metaball circle is drawn. *)
Theorem solid_scenario_sequence :
  forall settings,
    numMetaballs settings = 0 ->
    morphRadius settings = 0 ->
    textureMode settings = solid ->
    blurStdDev settings = 0 ->
    renderFilterContent settings =
      [ feTurbulence (noiseType settings)
          (distortionX settings, distortionY settings) 2 (noiseSeed settings)
          "noise";
        feDisplacementMap "SourceGraphic" "noise" (distortionStrength settings)
          chR chG "distorted";
        feGaussianBlur "distorted" 0 "blurred";
        feColorMatrix "blurred" (colorMatrixValues settings) "gooShape";
        feMerge ["gooShape"] ] /\
    List.length (renderFilterContent settings) = 5%nat /\
    (forall time, circles settings time = []).
Proof.
  intros settings Hnum Hradius Hmode Hblur.
  assert (Hgt : Js.gt (morphRadius settings) 0 = false)
    by (apply gt_false; lra).
  assert (Hseq : renderFilterContent settings =
      [ feTurbulence (noiseType settings)
          (distortionX settings, distortionY settings) 2 (noiseSeed settings)
          "noise";
        feDisplacementMap "SourceGraphic" "noise" (distortionStrength settings)
          chR chG "distorted";
        feGaussianBlur "distorted" 0 "blurred";
        feColorMatrix "blurred" (colorMatrixValues settings) "gooShape";
        feMerge ["gooShape"] ]).
  { unfold renderFilterContent, when. rewrite Hgt, Hmode, Hblur. reflexivity. }
  split; [exact Hseq|]. split.
  - rewrite Hseq. reflexivity.
  - intros time. unfold circles, anchors.
    rewrite (strict_eq_true _ _ Hnum). reflexivity.
Qed.

Lemma solid_scenario_sequence_witness :
  List.length (renderFilterContent no_metaballs_settings) = 5%nat /\
  circles no_metaballs_settings 0 = [].
Proof.
  destruct (solid_scenario_sequence no_metaballs_settings) as [_ [Hlen Hcircles]];
    try reflexivity.
  split; [exact Hlen | apply Hcircles].
Defined.

(** C4: every compiled sequence holds a contrast-remap stage that reads
    [blurred] and writes [gooShape]; its colour matrix leaves the red, green
    and blue channels as they are and maps alpha to
    [contrast * alpha + (-(contrast * 0.5))]. *)
Theorem contrast_remap_always_emitted :
  forall settings,
    In (feColorMatrix "blurred" (colorMatrixValues settings) "gooShape")
       (renderFilterContent settings) /\
    forall px,
      apply_color_matrix (colorMatrixValues settings) px =
      mkRGBA (red px) (green px) (blue px)
             (contrast settings * alpha px + - (contrast settings * (5 / 10))).
Proof.
  intros settings. split.
  - unfold renderFilterContent.
    apply in_or_app. right. apply in_or_app. left. simpl. tauto.
  - intros px. unfold apply_color_matrix, matrix_row, colorMatrixValues,
      alphaMultiplier, alphaOffset. simpl.
    f_equal; unfold Js.number in *; ring.
Qed.

(** C5: with the neon texture the compiled sequence ends in a merge of the
    five inputs [glow3], [glow2], [glow1], [gooShape], [gooShape], in that
    order, preceded by the three blurs of [gooShape] that produce [glow1],
    [glow2] and [glow3] at strictly increasing radii. *)
Theorem neon_merges_three_glows :
  forall settings,
    textureMode settings = neon ->
    last (renderFilterContent settings) (feMerge [])
      = feMerge ["glow3"; "glow2"; "glow1"; "gooShape"; "gooShape"] /\
    exists (radius1 radius2 radius3 : Js.number)
           (before : list FilterPrimitive),
      renderFilterContent settings =
        before ++
        [ feGaussianBlur "gooShape" radius1 "glow1";
          feGaussianBlur "gooShape" radius2 "glow2";
          feGaussianBlur "gooShape" radius3 "glow3";
          feMerge ["glow3"; "glow2"; "glow1"; "gooShape"; "gooShape"] ] /\
      radius1 < radius2 < radius3.
Proof.
  intros settings Hmode. unfold renderFilterContent, when. rewrite Hmode.
  destruct (Js.gt (morphRadius settings) 0); simpl.
  - split; [reflexivity|].
    exists 2, 6, 12.
    exists [ feMorphology (morphOperator settings) (morphRadius settings)
               "morphed";
             feTurbulence (noiseType settings)
               (distortionX settings, distortionY settings) 2
               (noiseSeed settings) "noise";
             feDisplacementMap "morphed" "noise" (distortionStrength settings)
               chR chG "distorted";
             feGaussianBlur "distorted" (blurStdDev settings) "blurred";
             feColorMatrix "blurred" (colorMatrixValues settings) "gooShape" ].
    split; [reflexivity | lra].
  - split; [reflexivity|].
    exists 2, 6, 12.
    exists [ feTurbulence (noiseType settings)
               (distortionX settings, distortionY settings) 2
               (noiseSeed settings) "noise";
             feDisplacementMap "SourceGraphic" "noise"
               (distortionStrength settings) chR chG "distorted";
             feGaussianBlur "distorted" (blurStdDev settings) "blurred";
             feColorMatrix "blurred" (colorMatrixValues settings) "gooShape" ].
    split; [reflexivity | lra].
Qed.

Lemma neon_merges_three_glows_witness :
  textureMode neon_settings = neon /\
  last (renderFilterContent neon_settings) (feMerge [])
    = feMerge ["glow3"; "glow2"; "glow1"; "gooShape"; "gooShape"].
Proof.
  split; [reflexivity|].
  apply (neon_merges_three_glows neon_settings). reflexivity.
Defined.

(** ** Claims on the style suggestion *)

Lemma updateSettings_empty_patch (settings : TypeSettings) :
  updateSettings empty_patch settings = settings.
Proof. destruct settings. reflexivity. Qed.

(** The suggestion call never rejects, whatever the environment does. *)
Lemma generateStyleFromPrompt_returns (env : Environment) (prompt : string)
    (settings : TypeSettings) :
  exists patch, generateStyleFromPrompt env prompt settings = Returned patch.
Proof.
  unfold generateStyleFromPrompt.
  destruct (Js.falsy (API_KEY env)); [now eexists|].
  destruct (generateContent env (style_request prompt)) as [response | error];
    simpl; [|now eexists].
  destruct (response_text response) as [[|c json] |]; try now eexists.
  destruct (JSON_parse env (String c json)); simpl; now eexists.
Qed.

(** C9: when the suggestion call fails (the API key is missing, the model's
    response has no text, the request is rejected, or the text does not
    parse) [generateStyleFromPrompt] returns the empty patch and does not
    throw; applying the empty patch with [updateSettings] gives back the
    settings unchanged, and so does the handler that chains the two. *)
Theorem failed_suggestion_leaves_settings :
  forall env prompt settings,
    suggestion_fails env prompt ->
    generateStyleFromPrompt env prompt settings = Returned empty_patch /\
    updateSettings empty_patch settings = settings /\
    handleAiGenerate env prompt settings = settings.
Proof.
  intros env prompt settings Hfails.
  assert (Hpatch :
            generateStyleFromPrompt env prompt settings = Returned empty_patch).
  { unfold generateStyleFromPrompt.
    destruct (Js.falsy (API_KEY env)) eqn:Hkey; [reflexivity|].
    destruct Hfails as [Hmissing | error Hcall | response Hcall Htext
                       | response json error Hcall Htext Hparse].
    - congruence.
    - rewrite Hcall. reflexivity.
    - rewrite Hcall. simpl.
      destruct (response_text response) as [[|c json] |];
        [reflexivity | discriminate | reflexivity].
    - rewrite Hcall. simpl. rewrite Htext.
      destruct json as [|c json]; [reflexivity|].
      rewrite Hparse. reflexivity. }
  split; [exact Hpatch|]. split.
  - apply updateSettings_empty_patch.
  - unfold handleAiGenerate. rewrite Hpatch.
    destruct (blank prompt); [reflexivity|].
    apply updateSettings_empty_patch.
Qed.

Lemma failed_suggestion_leaves_settings_witness :
  suggestion_fails offline_environment "liquid chrome" /\
  handleAiGenerate offline_environment "liquid chrome" DEFAULT_SETTINGS
    = DEFAULT_SETTINGS.
Proof.
  assert (Hfails : suggestion_fails offline_environment "liquid chrome").
  { apply fails_network with (error := "network error"). reflexivity. }
  split; [exact Hfails|].
  apply (failed_suggestion_leaves_settings offline_environment
           "liquid chrome" DEFAULT_SETTINGS Hfails).
Defined.

(* ================================================================= *)
(** * Further properties of the filter graph *)

(** Both guards on the morph radius and the four texture tests, by cases. *)
Ltac graph_cases settings :=
  unfold renderFilterContent, when;
  destruct (Js.gt (morphRadius settings) 0);
  destruct (textureMode settings); simpl.

(** X1: in every compiled sequence each stage reads only [SourceGraphic] or
    a buffer that an earlier stage has written: no stage refers to the
    output of an elided or later stage. *)
Theorem filter_graph_well_threaded :
  forall settings,
    well_threaded ["SourceGraphic"] (renderFilterContent settings) = true.
Proof. intros settings. graph_cases settings; reflexivity. Qed.

(** X2: in every compiled sequence the buffer names written are pairwise
    distinct, every named buffer is read by a later stage, and the last
    stage is the only one without a name (its output is the filter's
    result). *)
Theorem filter_graph_buffers_distinct_and_read :
  forall settings,
    NoDup (results (renderFilterContent settings)) /\
    every_result_read (renderFilterContent settings) = true /\
    stage_result (last (renderFilterContent settings) (feMerge [])) = None.
Proof.
  intros settings. graph_cases settings; unfold results; simpl;
    (split; [|split; reflexivity]);
    repeat (constructor; [simpl; intuition discriminate|]); constructor.
Qed.

(** X3: a morphology stage is present exactly when the morph radius is
    positive (a negative radius elides it like zero does), and the sequence
    has that stage, the four shape stages and the stages of exactly one
    material branch: one for solid, four for chrome, five for glass, four
    for neon. *)
Theorem filter_graph_stage_count :
  forall settings,
    (existsb is_morphology (renderFilterContent settings) = true
     <-> morphRadius settings > 0) /\
    List.length (renderFilterContent settings) =
      ((if Js.gt (morphRadius settings) 0%R then 1 else 0)
       + 4
       + match textureMode settings with
         | solid => 1 | chrome => 4 | glass => 5 | neon => 4
         end)%nat.
Proof.
  intros settings. split.
  - split.
    + intros Hex. destruct (Rlt_dec 0 (morphRadius settings)) as [Hpos | Hnon];
        [exact Hpos|].
      assert (Hgt : Js.gt (morphRadius settings) 0 = false)
        by (apply gt_false; lra).
      revert Hex. unfold renderFilterContent, when. rewrite Hgt.
      destruct (textureMode settings); simpl; discriminate.
    + intros Hpos. unfold renderFilterContent, when.
      rewrite (gt_true _ _ Hpos). reflexivity.
  - graph_cases settings; reflexivity.
Qed.

(** X4: whatever the settings, a blur of zero included, the stages that
    follow the optional morphology are noise generation (two octaves, the
    settings' type, frequencies and seed), displacement by the noise's red
    and green channels at the settings' strength, the blur and the contrast
    remap, in this order and threaded [noise], [distorted], [blurred],
    [gooShape]. *)
Theorem filter_graph_shape_stages :
  forall settings,
    firstn 4 (skipn (if Js.gt (morphRadius settings) 0 then 1%nat else 0%nat)
                (renderFilterContent settings)) =
    [ feTurbulence (noiseType settings)
        (distortionX settings, distortionY settings) 2 (noiseSeed settings)
        "noise";
      feDisplacementMap
        (if Js.gt (morphRadius settings) 0 then "morphed" else "SourceGraphic")
        "noise" (distortionStrength settings) chR chG "distorted";
      feGaussianBlur "distorted" (blurStdDev settings) "blurred";
      feColorMatrix "blurred" (colorMatrixValues settings) "gooShape" ].
Proof. intros settings. graph_cases settings; reflexivity. Qed.

(** X5: the compiled sequence depends on the settings only through the
    morphology, distortion, liquid and texture fields: a change of the text,
    the transform, the metaballs or the colours leaves the graph as it
    was. *)
Theorem filter_graph_ignores_other_fields :
  forall settings1 settings2,
    morphRadius settings1 = morphRadius settings2 ->
    morphOperator settings1 = morphOperator settings2 ->
    distortionX settings1 = distortionX settings2 ->
    distortionY settings1 = distortionY settings2 ->
    distortionStrength settings1 = distortionStrength settings2 ->
    noiseType settings1 = noiseType settings2 ->
    noiseSeed settings1 = noiseSeed settings2 ->
    blurStdDev settings1 = blurStdDev settings2 ->
    contrast settings1 = contrast settings2 ->
    textureMode settings1 = textureMode settings2 ->
    renderFilterContent settings1 = renderFilterContent settings2.
Proof.
  intros s1 s2 Hr Ho Hx Hy Hs Ht Hseed Hb Hc Hm.
  unfold renderFilterContent, colorMatrixValues, alphaMultiplier, alphaOffset.
  rewrite Hr, Ho, Hx, Hy, Hs, Ht, Hseed, Hb, Hc, Hm. reflexivity.
Qed.

Lemma filter_graph_ignores_other_fields_witness :
  renderFilterContent no_metaballs_settings
  = renderFilterContent DEFAULT_SETTINGS /\
  renderFilterContent frozen_settings = renderFilterContent DEFAULT_SETTINGS.
Proof.
  split;
    apply filter_graph_ignores_other_fields; reflexivity.
Defined.

(** X6: for a positive contrast the remap sends alpha [a] to
    [contrast * (a - 0.5)]: a sample vanishes (alpha at most 0) exactly when
    its alpha is at most one half, it saturates (alpha at least 1) exactly
    when its alpha is at least [0.5 + 1 / contrast], and a fully opaque
    sample stays fully opaque exactly when the contrast is at least 2. *)
Theorem contrast_remap_thresholds :
  forall settings (a : Js.number),
    contrast settings > 0 ->
    remapped_alpha settings a = contrast settings * (a - 5 / 10) /\
    (remapped_alpha settings a <= 0 <-> a <= 5 / 10) /\
    (1 <= remapped_alpha settings a <-> 5 / 10 + 1 / contrast settings <= a) /\
    (1 <= remapped_alpha settings 1 <-> 2 <= contrast settings).
Proof.
  intros settings a Hc.
  assert (Hval : forall x, remapped_alpha settings x
                           = contrast settings * (x - 5 / 10)).
  { intros x. unfold remapped_alpha, apply_color_matrix, matrix_row,
      colorMatrixValues, alphaMultiplier, alphaOffset. simpl.
    unfold Js.number in *. ring. }
  rewrite !Hval. unfold Js.number in *.
  set (c := contrast settings) in *.
  assert (Hinv : c * (1 / c) = 1) by (field; lra).
  assert (Hpos : 0 < 1 / c) by (apply Rdiv_lt_0_compat; lra).
  split; [reflexivity|]. split; [|split]; split; intros H; nra.
Qed.

Lemma contrast_remap_thresholds_witness :
  remapped_alpha DEFAULT_SETTINGS 1 = 1 * (1 - 5 / 10).
Proof.
  apply (contrast_remap_thresholds DEFAULT_SETTINGS 1). simpl. lra.
Defined.

(** X7: with the chrome texture the sequence ends in the arithmetic
    composite of [specularMasked] and [gooShape], and its coefficients make
    the arithmetic formula the plain sum of the two inputs. *)
Theorem chrome_blend_is_sum :
  forall settings,
    textureMode settings = chrome ->
    exists k,
      last (renderFilterContent settings) (feMerge [])
        = feComposite "specularMasked" "gooShape" op_arithmetic (Some k) None
      /\ forall i1 i2 : Js.number, arithmetic k i1 i2 = i1 + i2.
Proof.
  intros settings Hmode. exists (0, 1, 1, 0). split.
  - unfold renderFilterContent, when. rewrite Hmode.
    destruct (Js.gt (morphRadius settings) 0); reflexivity.
  - intros i1 i2. unfold arithmetic, Js.number in *. ring.
Qed.

Lemma chrome_blend_is_sum_witness :
  exists k,
    last (renderFilterContent
            (updateSettings (patch_textureMode chrome) DEFAULT_SETTINGS))
         (feMerge [])
      = feComposite "specularMasked" "gooShape" op_arithmetic (Some k) None
    /\ forall i1 i2 : Js.number, arithmetic k i1 i2 = i1 + i2.
Proof.
  apply (chrome_blend_is_sum
           (updateSettings (patch_textureMode chrome) DEFAULT_SETTINGS)).
  reflexivity.
Defined.

(** X8: with the glass texture the sequence holds a colour matrix from
    [gooShape] to [transparentBase] that keeps red, green and blue and
    scales alpha to 40 percent, and it ends in the composite of
    [glassShine] over that translucent base. *)
Theorem glass_base_is_translucent :
  forall settings,
    textureMode settings = glass ->
    exists values,
      In (feColorMatrix "gooShape" values "transparentBase")
         (renderFilterContent settings) /\
      (forall px,
         apply_color_matrix values px =
         mkRGBA (red px) (green px) (blue px) (4 / 10 * alpha px)) /\
      last (renderFilterContent settings) (feMerge [])
        = feComposite "glassShine" "transparentBase" op_over None None.
Proof.
  intros settings Hmode.
  exists [ 1; 0; 0; 0; 0;  0; 1; 0; 0; 0;  0; 0; 1; 0; 0;  0; 0; 0; 4 / 10; 0 ].
  unfold renderFilterContent, when. rewrite Hmode.
  split; [|split].
  - destruct (Js.gt (morphRadius settings) 0); simpl; tauto.
  - intros px. unfold apply_color_matrix, matrix_row. simpl.
    f_equal; unfold Js.number in *; ring.
  - destruct (Js.gt (morphRadius settings) 0); reflexivity.
Qed.

Lemma glass_base_is_translucent_witness :
  last (renderFilterContent
          (updateSettings (patch_textureMode glass) DEFAULT_SETTINGS))
       (feMerge [])
    = feComposite "glassShine" "transparentBase" op_over None None.
Proof.
  destruct (glass_base_is_translucent
              (updateSettings (patch_textureMode glass) DEFAULT_SETTINGS))
    as [values [_ [_ Hlast]]]; [reflexivity | exact Hlast].
Defined.

(* ================================================================= *)
(** * Further properties of the metaball field and the clock *)

(** With a count strictly between [k] and [k + 1], or equal to [k + 1],
    the loop entered at index [j] appends the anchors of [j .. k]. *)
Lemma anchors_loop_ceiling (settings : TypeSettings) (k : nat) :
  INR k < numMetaballs settings <= INR (S k) ->
  forall (fuel j : nat) (balls : list Metaball),
    (j <= S k)%nat -> (S k - j <= fuel)%nat ->
    anchors_loop fuel settings (INR j) balls =
    balls ++ map (fun i => anchor_at settings (INR i)) (seq j (S k - j)).
Proof.
  intros [Hlo Hhi]. induction fuel as [|fuel IH]; intros j balls Hj Hfuel.
  - replace (S k - j)%nat with 0%nat by lia. simpl. now rewrite app_nil_r.
  - cbn [anchors_loop]. destruct (Nat.eq_dec j (S k)) as [-> | Hne].
    + rewrite lt_false by exact Hhi.
      rewrite Nat.sub_diag. cbn [seq map]. now rewrite app_nil_r.
    + assert (Hle : (j <= k)%nat) by lia.
      apply le_INR in Hle.
      rewrite lt_true by lra.
      rewrite <- S_INR, IH by lia.
      replace (S k - j)%nat with (S (S k - S j)) by lia.
      cbn [seq map]. rewrite <- app_assoc. reflexivity.
Qed.

Lemma anchors_nonpositive_count (settings : TypeSettings) :
  numMetaballs settings <= 0 -> anchors settings = [].
Proof.
  intros Hle. unfold anchors.
  destruct (Js.strict_eq (numMetaballs settings) 0); [reflexivity|].
  destruct (anchors_fuel settings) as [|fuel]; [reflexivity|].
  simpl. now rewrite lt_false.
Qed.

Lemma anchors_rounded_up_count (settings : TypeSettings) (k : nat) :
  INR k < numMetaballs settings <= INR (S k) ->
  anchors settings = map (fun i => anchor_at settings (INR i)) (seq 0 (S k)).
Proof.
  intros Hk. unfold anchors.
  rewrite strict_eq_false by (pose proof (pos_INR k); lra).
  change 0 with (INR 0).
  rewrite (anchors_loop_ceiling settings k Hk); [reflexivity | lia |].
  unfold anchors_fuel.
  destruct (archimed (numMetaballs settings)) as [Hup _].
  assert (Hlt : IZR (Z.of_nat k) < IZR (up (numMetaballs settings)))
    by (rewrite <- INR_IZR_INZ; lra).
  apply lt_IZR in Hlt. lia.
Qed.

(** X9: the anchors for a count that is not a natural number: a count of
    zero or below gives no anchor, and a count above [k] and at most [k + 1]
    gives the [k + 1] anchors of the indices [0 .. k], so a fractional count
    is rounded up. *)
Theorem anchors_for_any_count :
  forall settings,
    (numMetaballs settings <= 0 -> anchors settings = []) /\
    (forall k : nat,
       INR k < numMetaballs settings <= INR (S k) ->
       anchors settings
       = map (fun i => anchor_at settings (INR i)) (seq 0 (S k))).
Proof.
  intros settings. split.
  - apply anchors_nonpositive_count.
  - intros k Hk. now apply anchors_rounded_up_count.
Qed.

Lemma anchors_for_any_count_witness :
  anchors (updateSettings (patch_numMetaballs (-2)) DEFAULT_SETTINGS) = [] /\
  List.length
    (anchors (updateSettings (patch_numMetaballs (5 / 2)) DEFAULT_SETTINGS))
  = 3%nat.
Proof.
  split.
  - apply anchors_for_any_count. simpl. lra.
  - rewrite (proj2 (anchors_for_any_count _) 2%nat); [reflexivity|].
    simpl. lra.
Defined.

Lemma firstn_seq_le (n m start : nat) :
  (n <= m)%nat -> firstn n (seq start m) = seq start n.
Proof.
  revert m start. induction n as [|n IH]; intros m start Hle; [reflexivity|].
  destruct m as [|m]; [lia|].
  cbn [seq firstn]. rewrite IH by lia. reflexivity.
Qed.

(** X10: raising the count keeps the anchors already there: with the same
    spread and seed, the anchors for a count [n] are the first [n] anchors
    for any larger count [m]. *)
Theorem anchors_prefix_stable :
  forall settings1 settings2 (n m : nat),
    numMetaballs settings1 = INR n ->
    numMetaballs settings2 = INR m ->
    (n <= m)%nat ->
    metaballSpread settings1 = metaballSpread settings2 ->
    noiseSeed settings1 = noiseSeed settings2 ->
    anchors settings1 = firstn n (anchors settings2).
Proof.
  intros s1 s2 n m Hn Hm Hle Hspread Hseed.
  rewrite (anchors_integral s1 n Hn), (anchors_integral s2 m Hm).
  rewrite firstn_map, firstn_seq_le by exact Hle.
  apply map_ext. intros i. unfold anchor_at. now rewrite Hspread, Hseed.
Qed.

Lemma anchors_prefix_stable_witness :
  anchors (updateSettings (patch_numMetaballs 2) DEFAULT_SETTINGS)
  = firstn 2 (anchors DEFAULT_SETTINGS).
Proof.
  apply (anchors_prefix_stable
           (updateSettings (patch_numMetaballs 2) DEFAULT_SETTINGS)
           DEFAULT_SETTINGS 2 5);
    [simpl; lra | simpl; lra | lia | reflexivity | reflexivity].
Defined.

(** X11: with a noise seed of zero the four seeds of an anchor coincide, so
    one draw decides the whole anchor: it lies on the diagonal
    [baseX = baseY], and its radius, phase and speed multiplier follow from
    the same draw. *)
Theorem zero_seed_anchors_degenerate :
  forall settings ball,
    noiseSeed settings = 0 ->
    In ball (anchors settings) ->
    exists draw,
      draw = pseudoRandom (id ball) /\
      baseX ball = 50 + (draw - 5 / 10) * metaballSpread settings /\
      baseY ball = baseX ball /\
      r ball = 20 + draw * 60 /\
      phase ball = draw * PI * 2 /\
      speed ball = 5 / 10 + draw * (5 / 10).
Proof.
  intros settings ball Hseed Hin.
  destruct (anchors_In settings ball Hin) as [i ->].
  exists (pseudoRandom i). unfold anchor_at, Js.Math_PI. simpl.
  rewrite Hseed, !Rmult_0_l, Rplus_0_l. repeat split.
Qed.

Lemma zero_seed_anchors_degenerate_witness :
  baseY (anchor_at (mkTypeSettings "" Syne 120 0 1 0 0 0 0 dilate 0 0 0
                      turbulence 0 0 1 solid 1 40 0 "" "" 0 true false "") 0)
  = baseX (anchor_at (mkTypeSettings "" Syne 120 0 1 0 0 0 0 dilate 0 0 0
                        turbulence 0 0 1 solid 1 40 0 "" "" 0 true false "") 0).
Proof.
  destruct (zero_seed_anchors_degenerate
              (mkTypeSettings "" Syne 120 0 1 0 0 0 0 dilate 0 0 0
                 turbulence 0 0 1 solid 1 40 0 "" "" 0 true false "")
              (anchor_at (mkTypeSettings "" Syne 120 0 1 0 0 0 0 dilate 0 0 0
                            turbulence 0 0 1 solid 1 40 0 "" "" 0 true false "")
                         0))
    as [draw [_ [_ [Hdiag _]]]].
  - reflexivity.
  - rewrite (anchors_integral _ 1); [now left | simpl; lra].
  - exact Hdiag.
Defined.



(* ================================================================= *)
(** * Further properties of the text block *)

Lemma split_not_nil (sep : Ascii.ascii) (s : string) : split sep s <> [].
Proof.
  destruct s as [|c rest]; simpl; [discriminate|].
  destruct (Ascii.eqb c sep); [discriminate|].
  destruct (split sep rest); discriminate.
Qed.

Lemma concat_cons_char (sep : string) (c : Ascii.ascii) (piece : string)
    (pieces : list string) :
  String.concat sep (String c piece :: pieces)
  = String c (String.concat sep (piece :: pieces)).
Proof. destruct pieces; reflexivity. Qed.

Lemma concat_split (sep : Ascii.ascii) (s : string) :
  String.concat (String sep EmptyString) (split sep s) = s.
Proof.
  induction s as [|c rest IH]; [reflexivity|].
  simpl. destruct (Ascii.eqb c sep) eqn:Hc.
  - apply Ascii.eqb_eq in Hc. subst c.
    destruct (split sep rest) as [|piece pieces] eqn:Hsplit.
    + now apply split_not_nil in Hsplit.
    + change (String.concat (String sep EmptyString)
                (EmptyString :: piece :: pieces))
        with (String sep
                (String.concat (String sep EmptyString) (piece :: pieces))).
      rewrite IH. reflexivity.
  - destruct (split sep rest) as [|piece pieces] eqn:Hsplit.
    + now apply split_not_nil in Hsplit.
    + rewrite concat_cons_char, IH. reflexivity.
Qed.

Lemma length_split (sep : Ascii.ascii) (s : string) :
  List.length (split sep s) = S (occurrences sep s).
Proof.
  induction s as [|c rest IH]; [reflexivity|].
  simpl. destruct (Ascii.eqb c sep).
  - simpl. now rewrite IH.
  - destruct (split sep rest) as [|piece pieces] eqn:Hsplit.
    + now apply split_not_nil in Hsplit.
    + simpl in *. exact IH.
Qed.

Lemma split_pieces_free (sep : Ascii.ascii) (s : string) :
  Forall (fun piece => occurrences sep piece = 0%nat) (split sep s).
Proof.
  induction s as [|c rest IH]; simpl.
  - repeat constructor.
  - destruct (Ascii.eqb c sep) eqn:Hc.
    + constructor; [reflexivity | exact IH].
    + destruct (split sep rest) as [|piece pieces].
      * repeat constructor. simpl. now rewrite Hc.
      * inversion IH as [|? ? Hpiece Hpieces]; subst.
        constructor; [|exact Hpieces]. simpl. now rewrite Hc, Hpiece.
Qed.

(** X14: the lines of the text are never an empty list; there is one more
    line than the text has line breaks, no line holds a line break, and
    joining the lines with line breaks gives the text back. *)
Theorem lines_round_trip :
  forall settings,
    String.concat newline (lines settings) = text settings /\
    List.length (lines settings) = S (occurrences newline_char (text settings))
    /\
    Forall (fun line => occurrences newline_char line = 0%nat) (lines settings).
Proof.
  intros settings. unfold lines. split; [|split].
  - apply concat_split.
  - apply length_split.
  - apply split_pieces_free.
Qed.

(* ================================================================= *)
(** * Further properties of the exported source *)

Lemma prefix_app (literal rest : string) :
  String.prefix literal (literal ++ rest) = true.
Proof.
  induction literal as [|c literal IH]; simpl.
  - now destruct rest.
  - destruct (Ascii.ascii_dec c c) as [_ | Hne]; [exact IH | contradiction].
Qed.

Lemma strip_prefix_app (prefix rest : string) :
  strip_prefix prefix (prefix ++ rest) = Some rest.
Proof.
  induction prefix as [|c prefix IH]; simpl; [reflexivity|].
  now rewrite Ascii.eqb_refl.
Qed.

Lemma strip_prefix_Some (prefix : string) :
  forall s rest : string,
    strip_prefix prefix s = Some rest -> s = (prefix ++ rest)%string.
Proof.
  induction prefix as [|c prefix IH]; intros s rest Hstrip; simpl in *.
  - now injection Hstrip as ->.
  - destruct s as [|c' s]; [discriminate|].
    destruct (Ascii.eqb c c') eqn:Hc; [|discriminate].
    apply Ascii.eqb_eq in Hc. subst c'. f_equal. now apply IH.
Qed.

Lemma after_tag_name_seen (literal s : string) :
  after_tag_name literal false s = true ->
  after_tag_name literal true s = true.
Proof.
  destruct s as [|c rest]; simpl; [discriminate|].
  intros ->. apply orb_true_r.
Qed.

(** Attributes put before a declaration do not hide it. *)
Lemma after_tag_name_skip (literal rest : string) :
  after_tag_name literal false rest = true ->
  forall attributes : string,
    tag_free attributes = true ->
    after_tag_name literal false (attributes ++ rest) = true.
Proof.
  intros Hrest. induction attributes as [|c attributes IH]; intros Hfree.
  - exact Hrest.
  - simpl in Hfree. apply andb_prop in Hfree. destruct Hfree as [Hc Hfree].
    cbn [String.append after_tag_name andb orb]. rewrite Hc.
    apply after_tag_name_seen, IH, Hfree.
Qed.

(** A declaration right after one character of the tag is found. *)
Lemma after_tag_name_found (literal rest : string) (c : Ascii.ascii) :
  Ascii.eqb c tag_end = false ->
  after_tag_name literal false (String c (literal ++ rest)) = true.
Proof.
  intros Hc. cbn [after_tag_name andb orb]. rewrite Hc.
  destruct (literal ++ rest)%string eqn:Happ.
  - cbn [after_tag_name andb negb]. rewrite <- Happ, prefix_app. reflexivity.
  - cbn [after_tag_name andb negb]. rewrite <- Happ, prefix_app. reflexivity.
Qed.

Lemma root_tag_declares_svg (literal rest : string) :
  root_tag_declares literal ("<svg" ++ rest) = after_tag_name literal false rest.
Proof. unfold root_tag_declares. now rewrite strip_prefix_app. Qed.

Lemma replace_root_tag_svg (attribute rest : string) :
  replace_root_tag ("<svg " ++ attribute) ("<svg" ++ rest)
  = ("<svg" ++ String Ascii.Space (attribute ++ rest))%string.
Proof.
  unfold replace_root_tag. rewrite strip_prefix_app. reflexivity.
Qed.

Lemma with_namespaces_declares :
  forall rest : string,
    root_tag_declares xmlns_declaration (with_namespaces ("<svg" ++ rest))
      = true /\
    root_tag_declares "xmlns:xlink" (with_namespaces ("<svg" ++ rest)) = true.
Proof.
  intros rest. unfold with_namespaces.
  assert (Hfirst : exists rest1,
            (if negb (root_tag_declares xmlns_declaration ("<svg" ++ rest))
             then replace_root_tag ("<svg " ++ xmlns_declaration)
                    ("<svg" ++ rest)
             else ("<svg" ++ rest)%string) = ("<svg" ++ rest1)%string /\
            after_tag_name xmlns_declaration false rest1 = true).
  { destruct (root_tag_declares xmlns_declaration ("<svg" ++ rest)) eqn:Hdecl.
    - exists rest. split; [reflexivity|].
      now rewrite root_tag_declares_svg in Hdecl.
    - exists (String Ascii.Space (xmlns_declaration ++ rest)). split.
      + apply replace_root_tag_svg.
      + apply after_tag_name_found. reflexivity. }
  destruct Hfirst as [rest1 [-> Hxmlns]].
  destruct (root_tag_declares "xmlns:xlink" ("<svg" ++ rest1)) eqn:Hxlink.
  - cbn [negb]. rewrite Hxlink, root_tag_declares_svg. now split.
  - cbn [negb]. rewrite replace_root_tag_svg, !root_tag_declares_svg. split.
    + apply (after_tag_name_skip _ _ Hxmlns
               (String Ascii.Space xlink_declaration)). reflexivity.
    + apply (after_tag_name_found "xmlns:xlink"). reflexivity.
Qed.

(** X16: when the serialized element starts with [<svg], the source that
    is exported declares both namespaces in its root tag: after the two
    repairs both tests of [downloadSVG] succeed, whatever the element
    declared before, and the XML header comes first. *)
Theorem exported_source_declares_namespaces :
  forall rest : string,
    exists body,
      downloadSVG (Some ("<svg" ++ rest)%string)
        = Some (xml_header ++ body)%string /\
      root_tag_declares xmlns_declaration body = true /\
      root_tag_declares "xmlns:xlink" body = true.
Proof.
  intros rest. exists (with_namespaces ("<svg" ++ rest)).
  split; [reflexivity | apply with_namespaces_declares].
Qed.

(** X17: the repairs touch nothing else: a source that does not start with
    [<svg] is exported as it is, one whose root tag declares both
    namespaces is exported as it is, and repairing a repaired source changes
    nothing. *)
Theorem namespace_repair_is_idempotent :
  forall source : string,
    (strip_prefix "<svg" source = None -> with_namespaces source = source) /\
    (root_tag_declares xmlns_declaration source = true ->
     root_tag_declares "xmlns:xlink" source = true ->
     with_namespaces source = source) /\
    with_namespaces (with_namespaces source) = with_namespaces source.
Proof.
  intros source.
  assert (Hnone : forall s, strip_prefix "<svg" s = None ->
                            with_namespaces s = s).
  { intros s Hs. unfold with_namespaces, root_tag_declares, replace_root_tag.
    rewrite Hs. cbn [negb]. rewrite Hs. reflexivity. }
  assert (Hboth : forall s, root_tag_declares xmlns_declaration s = true ->
                            root_tag_declares "xmlns:xlink" s = true ->
                            with_namespaces s = s).
  { intros s H1 H2. unfold with_namespaces. rewrite H1. cbn [negb].
    rewrite H2. reflexivity. }
  split; [apply Hnone|]. split; [apply Hboth|].
  destruct (strip_prefix "<svg" source) as [rest|] eqn:Hstrip.
  - assert (Hsource : source = ("<svg" ++ rest)%string).
    { now apply strip_prefix_Some. }
    subst source.
    destruct (with_namespaces_declares rest) as [H1 H2].
    now apply Hboth.
  - rewrite (Hnone source Hstrip). now apply Hnone.
Qed.

Lemma namespace_repair_is_idempotent_witness :
  with_namespaces "<div/>" = "<div/>".
Proof.
  apply (proj1 (namespace_repair_is_idempotent "<div/>")). reflexivity.
Defined.

(* ================================================================= *)
(** * Further properties of the settings updates and the suggestion *)

Lemma spread_key_twice {A} (prev : A) (patch : option A) :
  spread_key (spread_key prev patch) patch = spread_key prev patch.
Proof. destruct patch; reflexivity. Qed.

(** X18: applying a patch twice is applying it once, and a patch applied
    after the empty patch, or before it, is the patch applied alone. *)
Theorem updateSettings_idempotent :
  forall newSettings prev,
    updateSettings newSettings (updateSettings newSettings prev)
      = updateSettings newSettings prev /\
    updateSettings newSettings (updateSettings empty_patch prev)
      = updateSettings newSettings prev /\
    updateSettings empty_patch (updateSettings newSettings prev)
      = updateSettings newSettings prev.
Proof.
  intros newSettings prev. split; [|split].
  - unfold updateSettings at 1. cbn -[spread_key].
    rewrite !spread_key_twice. reflexivity.
  - now rewrite updateSettings_empty_patch.
  - now rewrite updateSettings_empty_patch.
Qed.

(** X19: the suggestion call is fulfilled in every environment, never
    rejected; the patch it returns is either empty or the one [JSON.parse]
    returned for the non-empty text of the model's response, with the API
    key present; and it does not depend on the current settings. *)
Theorem suggestion_is_parsed_patch_or_empty :
  forall env prompt settings,
    exists patch,
      generateStyleFromPrompt env prompt settings = Returned patch /\
      (patch = empty_patch \/
       exists response json,
         Js.falsy (API_KEY env) = false /\
         generateContent env (style_request prompt) = Returned response /\
         response_text response = Some json /\
         json <> EmptyString /\
         JSON_parse env json = Returned patch) /\
      forall settings',
        generateStyleFromPrompt env prompt settings' = Returned patch.
Proof.
  intros env prompt settings. unfold generateStyleFromPrompt.
  destruct (Js.falsy (API_KEY env)) eqn:Hkey.
  { exists empty_patch. repeat split. now left. }
  destruct (generateContent env (style_request prompt))
    as [response | error] eqn:Hcall; simpl.
  2: { exists empty_patch. repeat split. now left. }
  destruct (response_text response) as [[|c json] |] eqn:Htext.
  1, 3: exists empty_patch; repeat split; now left.
  destruct (JSON_parse env (String c json)) as [patch | error] eqn:Hparse;
    simpl.
  - exists patch. split; [reflexivity|]. split; [|reflexivity].
    right. exists response, (String c json). repeat split; try assumption.
    discriminate.
  - exists empty_patch. repeat split. now left.
Qed.

(** X20: the handler applies a successful suggestion and nothing else: with
    a prompt that is not blank, the key present, a response with a
    non-empty text and a patch parsed from it, the new settings are the old
    ones updated by that patch; with a blank prompt the settings stay as
    they are in every environment. *)
Theorem handler_applies_parsed_patch :
  forall env prompt settings,
    (forall response json patch,
       blank prompt = false ->
       Js.falsy (API_KEY env) = false ->
       generateContent env (style_request prompt) = Returned response ->
       response_text response = Some json ->
       json <> EmptyString ->
       JSON_parse env json = Returned patch ->
       handleAiGenerate env prompt settings = updateSettings patch settings) /\
    (blank prompt = true -> handleAiGenerate env prompt settings = settings).
Proof.
  intros env prompt settings. split.
  - intros response json patch Hblank Hkey Hcall Htext Hjson Hparse.
    unfold handleAiGenerate, generateStyleFromPrompt.
    rewrite Hblank, Hkey, Hcall. simpl. rewrite Htext.
    destruct json as [|c json]; [contradiction|].
    rewrite Hparse. reflexivity.
  - intros Hblank. unfold handleAiGenerate. now rewrite Hblank.
Qed.

Lemma handler_applies_parsed_patch_witness :
  handleAiGenerate neon_answer_environment "neon sign" DEFAULT_SETTINGS
    = neon_settings /\
  handleAiGenerate neon_answer_environment "  " DEFAULT_SETTINGS
    = DEFAULT_SETTINGS /\
  handleAiGenerate neon_answer_environment no_break_space DEFAULT_SETTINGS
    = DEFAULT_SETTINGS.
Proof.
  split; [|split].
  - apply (proj1 (handler_applies_parsed_patch neon_answer_environment
                    "neon sign" DEFAULT_SETTINGS)
             (mkResponse (Some neon_json)) neon_json (patch_textureMode neon));
      try reflexivity.
    discriminate.
  - apply (proj2 (handler_applies_parsed_patch neon_answer_environment
                    "  " DEFAULT_SETTINGS)).
    reflexivity.
  - apply (proj2 (handler_applies_parsed_patch neon_answer_environment
                    no_break_space DEFAULT_SETTINGS)).
    reflexivity.
Defined.

(* ================================================================= *)
(** * The keys of the circles *)

(** A positive count lies above some natural number and at most one
    higher. *)
Lemma count_ceiling (count : Js.number) :
  0 < count -> exists k : nat, INR k < count <= INR (S k).
Proof.
  intros Hpos. destruct (archimed count) as [Hup Hdown].
  set (z := up count) in *.
  assert (Hz : (1 <= z)%Z).
  { assert (H0 : IZR 0 < IZR z) by lra. apply lt_IZR in H0. lia. }
  assert (Hbelow : IZR (z - 1) <= count) by (rewrite minus_IZR; lra).
  destruct (Rle_lt_or_eq_dec _ _ Hbelow) as [Hlt | Heq].
  - exists (Z.to_nat (z - 1)).
    rewrite S_INR, INR_IZR_INZ, Z2Nat.id by lia.
    rewrite minus_IZR in *. lra.
  - assert (Hz2 : (2 <= z)%Z).
    { assert (H0 : IZR 0 < IZR (z - 1)) by lra. apply lt_IZR in H0. lia. }
    exists (Z.to_nat (z - 2)).
    rewrite S_INR, INR_IZR_INZ, Z2Nat.id by lia.
    rewrite minus_IZR in *. lra.
Qed.

Lemma NoDup_map_injective {A B : Type} (f : A -> B) (l : list A) :
  (forall x y, f x = f y -> x = y) -> NoDup l -> NoDup (map f l).
Proof.
  intros Hinj Hnodup. induction Hnodup as [|x l Hnotin Hnodup IH]; simpl.
  - constructor.
  - constructor; [|exact IH].
    rewrite in_map_iff. intros [y [Hy Hin]].
    apply Hinj in Hy. subst y. contradiction.
Qed.

(** X21: whatever the count, a fractional or negative one included, the
    anchors carry pairwise distinct indices, counting up from zero: the
    [key] of every circle is unique. *)
Theorem anchor_ids_distinct :
  forall settings,
    NoDup (map id (anchors settings)) /\
    map id (anchors settings)
      = map INR (seq 0 (List.length (anchors settings))).
Proof.
  intros settings.
  assert (Hids : map id (anchors settings)
                 = map INR (seq 0 (List.length (anchors settings)))).
  { destruct (Rle_lt_dec (numMetaballs settings) 0) as [Hle | Hpos].
    - now rewrite (anchors_nonpositive_count settings Hle).
    - destruct (count_ceiling _ Hpos) as [k Hk].
      rewrite (anchors_rounded_up_count settings k Hk).
      rewrite length_map, length_seq, map_map. reflexivity. }
  split; [|exact Hids].
  rewrite Hids. apply NoDup_map_injective; [|apply seq_NoDup].
  intros i j. apply INR_eq.
Qed.

(* ================================================================= *)
(** * The generator and the anchors in binary64 arithmetic *)

Section Binary64.

Import PrimFloat.
Local Open Scope float_scope.







(** C10 fails in binary64.  For a noise seed of 7, a spread of 40 and the
    index 10, [baseX - 50] and [(2 * speed - 1.5) * 40] differ in their last
    digits.  For a noise seed of 1 and the spread [2^-60], which is not
    zero, the anchors of the indices 0 and 1 have the same [baseX] and
    different speed multipliers. *)
Lemma speed_identity_fails_on_doubles :
  F64.baseX (F64.anchor_at F64.reference_sine 7 40 10) - 50
    = 0x1.07641173d9798p+2 /\
  (2 * F64.speed (F64.anchor_at F64.reference_sine 7 40 10) - 1.5) * 40
    = 0x1.07641173d979cp+2 /\
  (F64.baseX (F64.anchor_at F64.reference_sine 7 40 10) - 50
   =? (2 * F64.speed (F64.anchor_at F64.reference_sine 7 40 10) - 1.5) * 40)
    = false /\
  (0x1p-60 =? 0) = false /\
  F64.baseX (F64.anchor_at F64.reference_sine 1 0x1p-60 0)
    = F64.baseX (F64.anchor_at F64.reference_sine 1 0x1p-60 1) /\
  (F64.speed (F64.anchor_at F64.reference_sine 1 0x1p-60 0)
   =? F64.speed (F64.anchor_at F64.reference_sine 1 0x1p-60 1)) = false.
Proof. repeat split; vm_compute; reflexivity. Qed.

(** C10, amended: the speed multiplier and the horizontal offset of an
    anchor come from one draw, the one seeded by [noiseSeed * 100 + i], in
    binary64 as in exact arithmetic: [baseX] is [50 + (draw - 0.5) * spread]
    and the speed is [0.5 + draw * 0.5].  In exact real arithmetic this
    gives [baseX - 50 = (2 * speed - 1.5) * metaballSpread] for every anchor
    and, with a non-zero spread, the speed multiplier as a function of
    [baseX]. *)
Theorem anchor_speed_and_baseX_share_draw :
  (forall (Math_sin : float -> float) (noiseSeed metaballSpread i : float),
     exists draw,
       draw = F64.pseudoRandom Math_sin (noiseSeed * 100 + i) /\
       F64.baseX (F64.anchor_at Math_sin noiseSeed metaballSpread i)
         = 50 + (draw - 0.5) * metaballSpread /\
       F64.speed (F64.anchor_at Math_sin noiseSeed metaballSpread i)
         = 0.5 + draw * 0.5) /\
  (forall settings ball,
     In ball (anchors settings) ->
     (exists draw,
        draw = pseudoRandom (noiseSeed settings * 100 + id ball) /\
        baseX ball = 50 + (draw - 5 / 10) * metaballSpread settings /\
        speed ball = 5 / 10 + draw * (5 / 10)) /\
     baseX ball - 50 = (2 * speed ball - 15 / 10) * metaballSpread settings /\
     (metaballSpread settings <> 0 ->
      speed ball
      = ((baseX ball - 50) / metaballSpread settings + 15 / 10) / 2))%R.
Proof.
  split.
  - intros Math_sin noiseSeed metaballSpread i.
    exists (F64.pseudoRandom Math_sin (noiseSeed * 100 + i)).
    repeat split.
  - intros settings ball Hin.
    destruct (anchors_In settings ball Hin) as [i ->].
    unfold anchor_at. simpl.
    set (draw := pseudoRandom (noiseSeed settings * 100 + i)%R).
    split; [|split].
    + exists draw. repeat split.
    + lra.
    + intros Hspread. unfold Js.number in *. field. exact Hspread.
Qed.

Lemma anchor_speed_and_baseX_share_draw_witness :
  (baseX (anchor_at DEFAULT_SETTINGS 0) - 50
   = (2 * speed (anchor_at DEFAULT_SETTINGS 0) - 15 / 10) * 40)%R.
Proof.
  apply (proj2 anchor_speed_and_baseX_share_draw DEFAULT_SETTINGS
           (anchor_at DEFAULT_SETTINGS 0%R)).
  rewrite (anchors_integral DEFAULT_SETTINGS 5); [now left | simpl; lra].
Defined.

End Binary64.
